(** * kedro.config.ConfigLoader: layered configuration loading

    A shallow embedding of [src/kedro/config/config.py] and of the two
    helpers of [kedro.config.common] it calls, followed by the properties
    of the loader.

    Layout: Python values, [pathlib] paths, glob patterns, the discovery
    helpers, the loader class, example projects, then the theorems. *)

From stdpp Require Import gmap strings list fin_maps.
From Stdlib Require Import ZArith Ascii String.

Set Warnings "-register-all".
Set Default Proof Using "Type".
Open Scope string_scope.
Open Scope list_scope.

(* ===================================================================== *)
(** ** Python values *)
(* ===================================================================== *)

(** The constructor's section arguments carry no annotation, and a parsed
    configuration file holds arbitrary data: both are Python values. *)
Inductive pyval : Type :=
| PyNone
| PyInt (z : Z)
| PyStr (s : string)
| PyList (l : list pyval)
| PyDict (d : gmap string pyval).

(** A configuration: a [dict] with string keys. Equality of [gmap]s is
    equality of their lookups, as [==] on Python dicts is. *)
Abbreviation config := (gmap string pyval).

(** Python's truth value of an object. *)
Definition truthy (v : pyval) : bool :=
  match v with
  | PyNone => false
  | PyInt z => negb (z =? 0)%Z
  | PyStr s => negb (String.eqb s "")
  | PyList l => match l with [] => false | _ :: _ => true end
  | PyDict d => bool_decide (d ≠ ∅)
  end.

(** [a or b]. *)
Definition py_or (a b : pyval) : pyval := if truthy a then a else b.

(** The elements of a list of values when all of them are strings. *)
Fixpoint as_strings (l : list pyval) : option (list string) :=
  match l with
  | [] => Some []
  | PyStr s :: l' => cons s <$> as_strings l'
  | _ :: _ => None
  end.

(* ===================================================================== *)
(** ** [pathlib.PurePosixPath] *)
(* ===================================================================== *)

Module PurePath.

(** [s.split(sep)]: the pieces between separators, empty ones included. *)
Fixpoint split_on (sep : ascii) (s : string) : list string :=
  match s with
  | EmptyString => [EmptyString]
  | String c s' =>
      if Ascii.eqb c sep then EmptyString :: split_on sep s'
      else match split_on sep s' with
           | [] => [String c EmptyString]
           | h :: t => String c h :: t
           end
  end.

(** [sep.join(parts)]. *)
Fixpoint join_with (sep : string) (parts : list string) : string :=
  match parts with
  | [] => ""
  | [p] => p
  | p :: ps => p +:+ sep +:+ join_with sep ps
  end.

(** [s.lstrip("/")] together with the number of slashes removed. *)
Fixpoint lstrip_slash (s : string) : nat * string :=
  match s with
  | String "/" s' => let '(n, r) := lstrip_slash s' in (S n, r)
  | _ => (0, s)
  end.

(** A parsed path: its root ([""], ["/"] or ["//"]) and its components. *)
Record t : Type := mk { root : string; parts : list string }.

(** [_PosixFlavour.splitroot]: exactly two leading slashes are kept as a
    root of their own, any other number collapses to one. *)
Definition splitroot (part : string) : string * string :=
  let '(n, stripped) := lstrip_slash part in
  match n with
  | 0 => ("", part)
  | 2 => ("//", stripped)
  | _ => ("/", stripped)
  end.

Definition keep_component (x : string) : bool :=
  negb (String.eqb x "") && negb (String.eqb x ".").

(** [Path(s)]: empty components and ["."] are dropped, [".."] is kept. *)
Definition parse (s : string) : t :=
  let '(r, rel) := splitroot s in
  mk r (List.filter keep_component (split_on "/" rel)).

(** [p / s]: an absolute right operand replaces the left one. *)
Definition truediv (p : t) (s : string) : t :=
  let q := parse s in
  if String.eqb (root q) "" then mk (root p) (parts p ++ parts q) else q.

(** [str(p)]; the empty path prints as ["."]. *)
Definition str (p : t) : string :=
  match root p, parts p with
  | "", [] => "."
  | r, ps => r +:+ join_with "/" ps
  end.

(** [name.suffix]-style extension of a file name, without the dot: the
    text after the last dot, provided the dot is neither the first nor
    the last character of the name. *)
Definition suffix (name : string) : option string :=
  match split_on "." name with
  | [] | [_] => None
  | stem :: rest =>
      match List.last rest "" with
      | "" => None
      | ext => if String.eqb stem "" && Nat.eqb (List.length rest) 1
               then None else Some ext
      end
  end.

(** The components of [f] below directory [d], when [f] lies under [d]. *)
Fixpoint strip_prefix (d f : list string) : option (list string) :=
  match d, f with
  | [], _ => Some f
  | x :: d', y :: f' => if String.eqb x y then strip_prefix d' f' else None
  | _ :: _, [] => None
  end.

Definition relative_to (d f : t) : option (list string) :=
  if String.eqb (root d) (root f) then strip_prefix (parts d) (parts f)
  else None.

End PurePath.

(* ===================================================================== *)
(** ** Glob patterns *)
(* ===================================================================== *)

Module Glob.

(** Modelled from the spec: glob matching is done inside
    [kedro/config/common.py], which is not part of the sources. One path
    component against one pattern segment: [*] stands for any run of
    characters, [?] for any single one. *)
Fixpoint fnmatch (pat name : string) : bool :=
  match pat with
  | EmptyString => match name with EmptyString => true | _ => false end
  | String "*" pat' =>
      (fix star (n : string) : bool :=
         fnmatch pat' n
         || match n with EmptyString => false | String _ n' => star n' end)
        name
  | String "?" pat' =>
      match name with EmptyString => false | String _ n' => fnmatch pat' n' end
  | String c pat' =>
      match name with
      | EmptyString => false
      | String d n' => Ascii.eqb c d && fnmatch pat' n'
      end
  end.

(** Modelled from the spec: a relative path against the segments of a
    pattern; the recursive wildcard [**] stands for any number of
    components, none included. *)
Fixpoint match_segments (pat rel : list string) : bool :=
  match pat with
  | [] => match rel with [] => true | _ => false end
  | seg :: pat' =>
      if String.eqb seg "**" then
        (fix deeper (r : list string) : bool :=
           match_segments pat' r
           || match r with [] => false | _ :: r' => deeper r' end)
          rel
      else
        match rel with
        | [] => false
        | c :: rel' => fnmatch seg c && match_segments pat' rel'
        end
  end.

(** Modelled from the spec: the segments of a pattern, between slashes. *)
Definition segments (pattern : string) : list string :=
  List.filter (fun x => negb (String.eqb x "")) (PurePath.split_on "/" pattern).

(** Modelled from the spec: a pattern against a path relative to a
    configuration directory. *)
Definition matches (pattern : string) (rel : list string) : bool :=
  match_segments (segments pattern) rel.

End Glob.

(* ===================================================================== *)
(** ** Exceptions, the filesystem and the effects of a call *)
(* ===================================================================== *)

(** The exceptions that cross the loader's methods. The class docstring
    names the duplicate-key error a [ValueError]. *)
Inductive exn : Type :=
| MissingConfigException (patterns : list string) (conf_paths : list string)
| ValueError_duplicate_key (key : string) (file1 file2 : string)
| ParseError (file : string)
| TypeError.

Definition is_missing (e : exn) : bool :=
  match e with MissingConfigException _ _ => true | _ => false end.

(** A file of the project: its path and what the parser of its format
    makes of its content, [None] when the content does not parse. The
    parsers are external; the filesystem is only read. *)
Record file : Type := mk_file { f_path : string; f_parsed : option config }.

(** The files of the project, in the order in which a scan meets them. *)
Abbreviation filesystem := (list file).

(** What a call leaves behind besides its result. *)
Inductive event : Type :=
| Discover (conf_paths : list string) (patterns : list pyval)
| Warn (exc : exn).

Definition is_discover (ev : event) : bool :=
  match ev with Discover _ _ => true | Warn _ => false end.

Definition is_warn (ev : event) : bool :=
  match ev with Warn _ => true | Discover _ _ => false end.

(* ===================================================================== *)
(** ** [kedro.config.common] *)
(* ===================================================================== *)

Module common.

(** Modelled from the spec: the supported extensions of section 6. *)
Definition SUPPORTED_EXTENSIONS : list string :=
  ["yaml"; "yml"; "json"; "ini"; "pickle"; "pkl"; "xml"; "properties"].

(** Modelled from the spec: whether a file name has a supported
    extension. *)
Definition supported (name : string) : bool :=
  match PurePath.suffix name with
  | Some ext => existsb (String.eqb ext) SUPPORTED_EXTENSIONS
  | None => false
  end.

(** Modelled from the spec: [_remove_duplicates] of
    [kedro/config/common.py], which is not part of the sources. The spec
    has it remove duplicates preserving the first occurrence, with no
    side effect. *)
Definition _remove_duplicates (items : list string) : list string :=
  fold_left
    (fun (unique : list string) (item : string) =>
       if bool_decide (item ∈ unique) then unique
       else unique ++ [item])
    items [].

(** Modelled from the spec: step 1a of the algorithm (4.2b), absent from
    the sources like the rest of [common.py]. Whether a file lies under
    [conf_path], has a supported extension and matches one of the
    patterns relative to [conf_path]. *)
Definition selected (conf_path : string) (patterns : list string)
    (f : file) : bool :=
  match PurePath.relative_to (PurePath.parse conf_path)
          (PurePath.parse (f_path f)) with
  | Some [] | None => false
  | Some rel =>
      supported (List.last rel "")
      && existsb (fun p => Glob.matches p rel) patterns
  end.

(** Modelled from the spec: the files step 1a collects for one directory,
    each file once, in the order of the scan. *)
Definition lookup_config_filepaths (fs : filesystem) (conf_path : string)
    (patterns : list string) : list file :=
  List.filter (selected conf_path patterns) fs.

(** Modelled from the spec: step 1b, parse every matched file; the first
    file that does not parse is fatal. *)
Fixpoint load_files (l : list file) : exn + list (string * config) :=
  match l with
  | [] => inr []
  | f :: l' =>
      match f_parsed f with
      | None => inl (ParseError (f_path f))
      | Some c =>
          match load_files l' with
          | inl e => inl e
          | inr r => inr ((f_path f, c) :: r)
          end
      end
  end.

(** Modelled from the spec: the check of step 1c. The first key of [c]
    that an earlier file of the directory already produced, with that
    file. *)
Definition find_collision (owner : gmap string string) (c : config)
    : option (string * string) :=
  head (map_to_list (map_zip_with (fun p0 (_ : pyval) => p0) owner c)).

(** Modelled from the spec: step 1c, merge the parsed files of one
    directory, failing on the first key that two files produce. [owner] records which file
    produced each key so far. *)
Fixpoint merge_files (owner : gmap string string) (acc : config)
    (l : list (string * config)) : exn + config :=
  match l with
  | [] => inr acc
  | (p, c) :: l' =>
      match find_collision owner c with
      | Some (k, p0) => inl (ValueError_duplicate_key k p0 p)
      | None => merge_files (((fun _ => p) <$> c) ∪ owner) (c ∪ acc) l'
      end
  end.

(** Modelled from the spec: steps 1a to 1c for one directory; the number
    of files discovered and their merged mapping. *)
Definition load_dir (fs : filesystem) (patterns : list string)
    (conf_path : string) : exn + (nat * config) :=
  let found := lookup_config_filepaths fs conf_path patterns in
  match load_files found with
  | inl e => inl e
  | inr parsed =>
      match merge_files ∅ ∅ parsed with
      | inl e => inl e
      | inr c => inr (List.length found, c)
      end
  end.

(** Modelled from the spec: step 1, every directory in resolution order. *)
Fixpoint load_dirs (fs : filesystem) (patterns : list string)
    (conf_paths : list string) : exn + list (nat * config) :=
  match conf_paths with
  | [] => inr []
  | d :: ds =>
      match load_dir fs patterns d with
      | inl e => inl e
      | inr r =>
          match load_dirs fs patterns ds with
          | inl e => inl e
          | inr rs => inr (r :: rs)
          end
      end
  end.

(** Modelled from the spec: step 2, overlay the directories' mappings
    onto an empty one, in order; the keys of the later mapping replace those already there
    ([dict.update]; [∪] on maps prefers its left operand). *)
Definition overlay (per_dir : list config) : config :=
  fold_left (fun acc c => c ∪ acc) per_dir ∅.

(** Modelled from the spec: the number of files discovered over all the
    directories, for step 3. *)
Definition files_found (per_dir : list (nat * config)) : nat :=
  foldr (fun r n => r.1 + n) 0 per_dir.

(** Modelled from the spec: the discovery-and-merge algorithm (4.2b) for
    string patterns; [kedro/config/common.py] is not part of the
    sources. Step 3 fails with the missing-configuration condition when
    no file was discovered in any directory. *)
Definition discover_and_merge (fs : filesystem) (conf_paths : list string)
    (patterns : list string) : exn + config :=
  match load_dirs fs patterns conf_paths with
  | inl e => inl e
  | inr per_dir =>
      if Nat.eqb (files_found per_dir) 0
      then inl (MissingConfigException patterns conf_paths)
      else inr (overlay (snd <$> per_dir))
  end.

(** Modelled from the spec: [_get_config_from_patterns] of
    [kedro/config/common.py], which is not part of the sources. The spec
    defines a pattern as a glob string and says nothing of other values;
    an element that is not a string is rejected with [TypeError], the
    way Python's path operations reject it. *)
Definition _get_config_from_patterns (fs : filesystem)
    (conf_paths : list string) (patterns : list pyval) : exn + config :=
  match as_strings patterns with
  | Some ps => discover_and_merge fs conf_paths ps
  | None => inl TypeError
  end.

End common.

(* ===================================================================== *)
(** ** The loader *)
(* ===================================================================== *)

Module ConfigLoader.

(** The attributes of an instance. [mapping] is the table of the
    essential sections kept by [AbstractConfigLoader]. *)
Record t : Type := mk {
  base_env : string;
  default_run_env : string;
  env : option string;
  conf_source : string;
  mapping : gmap string config;
  runtime_params : pyval
}.

(** An object before [__init__] has run. *)
Definition blank : t := mk "" "" None "" ∅ PyNone.

(** *** Methods as computations

    A method reads the filesystem, reads and writes [self], may raise,
    and leaves a trace of events. A raise keeps the writes and the
    events that came before it. *)
Definition M (A : Type) : Type :=
  filesystem -> t -> (exn + A) * t * list event.

#[export] Instance M_ret : MRet M :=
  fun A (a : A) _ self => (inr a, self, []).

#[export] Instance M_bind : MBind M :=
  fun A B (k : A -> M B) (m : M A) fs self =>
    match m fs self with
    | (inl e, self1, tr1) => (inl e, self1, tr1)
    | (inr a, self1, tr1) =>
        let '(r, self2, tr2) := k a fs self1 in (r, self2, tr1 ++ tr2)
    end.

Definition raise {A} (e : exn) : M A := fun _ self => (inl e, self, []).

Definition emit (ev : event) : M unit := fun _ self => (inr tt, self, [ev]).

Definition gets {A} (f : t -> A) : M A := fun _ self => (inr (f self), self, []).

Definition modify (f : t -> t) : M unit := fun _ self => (inr tt, f self, []).

(** [try: body  except <class> as exc: handler exc]; the handler is
    [None] on the exceptions the clause does not name. *)
Definition try_except {A} (body : M A) (handler : exn -> option (M A)) : M A :=
  fun fs self =>
    match body fs self with
    | (inl e, self1, tr1) =>
        match handler e with
        | Some h => let '(r, self2, tr2) := h fs self1 in (r, self2, tr1 ++ tr2)
        | None => (inl e, self1, tr1)
        end
    | ok => ok
    end.

(** A call of [_get_config_from_patterns]: the call is recorded, then
    the helper scans the filesystem. *)
Definition call_get_config_from_patterns (conf_paths : list string)
    (patterns : list pyval) : M config :=
  fun fs self =>
    (common._get_config_from_patterns fs conf_paths patterns, self,
     [Discover conf_paths patterns]).

(** [warn(...)]: the message quotes the exception. *)
Definition warn (exc : exn) : M unit := emit (Warn exc).

(** *** Attribute writes *)

Definition set_base_env (v : string) (s : t) : t :=
  mk v (default_run_env s) (env s) (conf_source s) (mapping s) (runtime_params s).
Definition set_default_run_env (v : string) (s : t) : t :=
  mk (base_env s) v (env s) (conf_source s) (mapping s) (runtime_params s).
Definition set_env (v : option string) (s : t) : t :=
  mk (base_env s) (default_run_env s) v (conf_source s) (mapping s) (runtime_params s).
Definition set_conf_source (v : string) (s : t) : t :=
  mk (base_env s) (default_run_env s) (env s) v (mapping s) (runtime_params s).
Definition set_mapping (v : gmap string config) (s : t) : t :=
  mk (base_env s) (default_run_env s) (env s) (conf_source s) v (runtime_params s).
Definition set_runtime_params (v : pyval) (s : t) : t :=
  mk (base_env s) (default_run_env s) (env s) (conf_source s) (mapping s) v.

(** *** Path resolution *)

(** [self.env or self.default_run_env]: [None] and the empty string are
    both false. *)
Definition run_env (self : t) : string :=
  match env self with
  | Some e => if String.eqb e "" then default_run_env self else e
  | None => default_run_env self
  end.

Definition _build_conf_paths (self : t) : list string :=
  [ PurePath.str (PurePath.truediv (PurePath.parse (conf_source self)) (base_env self));
    PurePath.str (PurePath.truediv (PurePath.parse (conf_source self)) (run_env self)) ].

(** The [conf_paths] property. *)
Definition conf_paths (self : t) : list string :=
  common._remove_duplicates (_build_conf_paths self).

(** *** Retrieval *)

(** The truth value of what [self.mapping.get(p)] returned: [None] and
    the empty dict are both false. *)
Definition truthy_config (value : option config) : option config :=
  match value with
  | Some v => if bool_decide (v ≠ ∅) then Some v else None
  | None => None
  end.

Definition get (patterns : list string) : M config :=
  value ← match patterns with
           | [p] => gets (fun self => mapping self !! p)
           | _ => mret None
           end;
  match truthy_config value with
  | Some v => mret v
  | None =>
      paths ← gets conf_paths;
      call_get_config_from_patterns paths (PyStr <$> patterns)
  end.

(** The tuple bound to [patterns] by the first statement of
    [get_essential_config]. The comma binds weaker than [or]: the tuple
    always has three elements, and [provided_patterns], when true,
    stands in for the first of them only. *)
Definition essential_patterns (config_type : string)
    (provided_patterns : pyval) : list pyval :=
  [ py_or provided_patterns (PyStr (config_type +:+ "*"));
    PyStr (config_type +:+ "*/**");
    PyStr ("**/" +:+ config_type +:+ "*") ].

Definition get_essential_config (config_type : string)
    (provided_patterns : pyval) : M config :=
  let patterns := essential_patterns config_type provided_patterns in
  try_except
    (paths ← gets conf_paths;
     call_get_config_from_patterns paths patterns)
    (fun exc =>
       if is_missing exc then Some (warn exc;; mret ∅) else None).

(** *** Construction *)

(** Modelled from the spec: [AbstractConfigLoader.__init__], which is
    not part of the sources. The spec has it keep the four essential
    sections in a mapping from section name to config, next to the
    construction parameters. *)
Definition AbstractConfigLoader__init__
    (catalog parameters credentials logging : config)
    (conf_source : string) (env : option string) (runtime_params : pyval)
    : M unit :=
  modify (set_mapping
            (<["catalog" := catalog]>
               (<["parameters" := parameters]>
                  (<["credentials" := credentials]>
                     (<["logging" := logging]> ∅)))));;
  modify (set_conf_source conf_source);;
  modify (set_env env);;
  modify (set_runtime_params runtime_params).

Definition __init__ (conf_source : string)
    (catalog parameters credentials logging : pyval)
    (env : option string) (runtime_params : pyval)
    (base_env default_run_env : string) : M unit :=
  modify (set_base_env base_env);;
  modify (set_default_run_env default_run_env);;
  modify (set_env env);;
  modify (set_conf_source conf_source);;
  catalog ← get_essential_config "catalog" catalog;
  parameters ← get_essential_config "parameters" parameters;
  credentials ← get_essential_config "credentials" credentials;
  logging ← get_essential_config "logging" logging;
  AbstractConfigLoader__init__ catalog parameters credentials logging
    conf_source env runtime_params.

(** [ConfigLoader(conf_source, catalog, ..., env, runtime_params)] with
    the keyword defaults [base_env="base"], [default_run_env="local"]. *)
Definition new (fs : filesystem) (conf_source : string)
    (catalog parameters credentials logging : pyval)
    (env : option string) (runtime_params : pyval)
    : (exn + unit) * t * list event :=
  __init__ conf_source catalog parameters credentials logging env
    runtime_params "base" "local" fs blank.

End ConfigLoader.

(* ===================================================================== *)
(** ** Vocabulary of the properties *)
(* ===================================================================== *)

(** Two different files of a directory listing, the first met before the
    second, both parse and both produce the key [k]. *)
Definition collide (listing : list file) (k : string) (p1 p2 : string) : Prop :=
  ∃ (i j : nat) (f1 f2 : file) (c1 c2 : config),
    i < j
    ∧ listing !! i = Some f1 ∧ listing !! j = Some f2
    ∧ f_path f1 = p1 ∧ f_path f2 = p2
    ∧ f_parsed f1 = Some c1 ∧ f_parsed f2 = Some c2
    ∧ is_Some (c1 !! k) ∧ is_Some (c2 !! k).

(** A duplicate-key error that names a key and two files of one of the
    directories searched which both produce it. *)
Definition names_duplicate (fs : filesystem) (pats ds : list string)
    (e : exn) : Prop :=
  ∃ k q1 q2 d,
    e = ValueError_duplicate_key k q1 q2
    ∧ d ∈ ds ∧ collide (common.lookup_config_filepaths fs d pats) k q1 q2.

(** A parse error that names a matched file of one of the directories
    searched which does not parse. *)
Definition names_unparsable (fs : filesystem) (pats ds : list string)
    (e : exn) : Prop :=
  ∃ d f,
    e = ParseError (f_path f)
    ∧ d ∈ ds ∧ f ∈ common.lookup_config_filepaths fs d pats
    ∧ f_parsed f = None.

(** [get] takes its fast path: one pattern, a key of the mapping, with a
    stored config that is true. *)
Definition cached (self : ConfigLoader.t) (patterns : list string)
    : option config :=
  match patterns with
  | [p] => ConfigLoader.truthy_config (ConfigLoader.mapping self !! p)
  | _ => None
  end.

(** What [get_essential_config] makes of the helper's outcome when it
    returns. *)
Definition downgraded (r : exn + config) : config :=
  match r with inr c => c | inl _ => ∅ end.

(** The error of a helper outcome that [get_essential_config] lets
    through: any error but the missing-configuration one. *)
Definition fatal (r : exn + config) : option exn :=
  match r with
  | inl e => if is_missing e then None else Some e
  | inr _ => None
  end.

(** The first outcome of a list that is fatal, with its position. *)
Fixpoint first_fatal (rs : list (exn + config)) : option (nat * exn) :=
  match rs with
  | [] => None
  | r :: rs' =>
      match fatal r with
      | Some e => Some (0, e)
      | None => prod_map S id <$> first_fatal rs'
      end
  end.

(** The events one request of an essential section leaves: the helper
    call, then the warning when the helper raised the
    missing-configuration error. *)
Definition section_events (paths : list string) (patterns : list pyval)
    (r : exn + config) : list event :=
  Discover paths patterns
  :: match r with
     | inl e => if is_missing e then [Warn e] else []
     | inr _ => []
     end.

(* ===================================================================== *)
(** ** Example projects *)
(* ===================================================================== *)

Module Examples.

Definition ints (l : list (string * Z)) : config :=
  list_to_map (prod_map id PyInt <$> l).

(** The layered project of the spec's scenario. *)
Definition layered_fs : filesystem :=
  [ mk_file "/proj/conf/base/catalog.yml" (Some (ints [("a", 1%Z); ("b", 2%Z)]));
    mk_file "/proj/conf/local/catalog.yml" (Some (ints [("b", 3%Z); ("c", 4%Z)])) ].

(** A project with no configuration file at all. *)
Definition bare_fs : filesystem := [].

(** Two files of the base directory produce the key [x]. *)
Definition clash_fs : filesystem :=
  [ mk_file "/proj/conf/base/parameters.yml" (Some (ints [("x", 1%Z)]));
    mk_file "/proj/conf/base/parameters_model.yml" (Some (ints [("x", 2%Z)])) ].

(** The same two files, with a third that does not parse, met first. *)
Definition clash_broken_fs : filesystem :=
  mk_file "/proj/conf/base/parameters_a.yml" None :: clash_fs.

(** [ConfigLoader(conf_source="/proj/conf", env=env)] once constructed. *)
Definition loader (fs : filesystem) (env : option string) : ConfigLoader.t :=
  (ConfigLoader.new fs "/proj/conf" PyNone PyNone PyNone PyNone env PyNone).1.2.

(** The instance as [__init__] has it when it asks for the first
    section: the four attributes are set, the mapping is not yet. *)
Definition under_construction : ConfigLoader.t :=
  ConfigLoader.mk "base" "local" None "/proj/conf" ∅ PyNone.

Definition layered : ConfigLoader.t :=
  Eval vm_compute in loader layered_fs (Some "local").
Definition bare : ConfigLoader.t := Eval vm_compute in loader bare_fs None.

End Examples.

(* ===================================================================== *)
(** ** Properties *)
(* ===================================================================== *)

Import ConfigLoader.

(** *** Running a method *)

Arguments conf_paths : simpl never.

Ltac run_M :=
  unfold mbind, mret, M_bind, M_ret, gets, modify, emit, warn, raise,
    try_except, call_get_config_from_patterns; cbn.

Lemma run_call fs self paths pats :
  call_get_config_from_patterns paths pats fs self
  = (common._get_config_from_patterns fs paths pats, self, [Discover paths pats]).
Proof. reflexivity. Qed.

Lemma as_strings_PyStr (ps : list string) : as_strings (PyStr <$> ps) = Some ps.
Proof.
  induction ps as [|p ps IH]; [done|].
  cbn. rewrite IH. done.
Qed.

(** [get] either answers from the mapping, silently, or calls the helper
    once with its own patterns. *)
Lemma get_unfold fs self pats :
  get pats fs self =
  match cached self pats with
  | Some v => (inr v, self, [])
  | None =>
      (common.discover_and_merge fs (conf_paths self) pats, self,
       [Discover (conf_paths self) (PyStr <$> pats)])
  end.
Proof.
  assert (Hslow : (paths ← gets conf_paths;
                   call_get_config_from_patterns paths (PyStr <$> pats)) fs self
                  = (common.discover_and_merge fs (conf_paths self) pats, self,
                     [Discover (conf_paths self) (PyStr <$> pats)])).
  { run_M. unfold common._get_config_from_patterns.
    by rewrite as_strings_PyStr. }
  unfold get, cached.
  destruct pats as [|p [|q pats]].
  - run_M. exact Hslow.
  - run_M. destruct (truthy_config (mapping self !! p)) as [v|]; [done|].
    exact Hslow.
  - run_M. exact Hslow.
Qed.

(** [get_essential_config] calls the helper once, and downgrades the
    missing-configuration error alone. *)
Lemma get_essential_config_unfold fs self t provided :
  get_essential_config t provided fs self =
  let pats := essential_patterns t provided in
  match common._get_config_from_patterns fs (conf_paths self) pats with
  | inr c => (inr c, self, [Discover (conf_paths self) pats])
  | inl e =>
      if is_missing e
      then (inr ∅, self, [Discover (conf_paths self) pats; Warn e])
      else (inl e, self, [Discover (conf_paths self) pats])
  end.
Proof.
  unfold get_essential_config. run_M.
  destruct (common._get_config_from_patterns _ _ _) as [e|c]; cbn; [|done].
  destruct (is_missing e); done.
Qed.

(** *** Path resolution *)

Lemma _remove_duplicates_pair (a b : string) :
  common._remove_duplicates [a; b] = if decide (a = b) then [a] else [a; b].
Proof.
  unfold common._remove_duplicates. cbn.
  rewrite (bool_decide_eq_false_2 (a ∈ [])) by (apply not_elem_of_nil).
  cbn. destruct (decide (a = b)) as [->|Hne].
  - rewrite bool_decide_eq_true_2; [done|]. apply list_elem_of_singleton. done.
  - rewrite bool_decide_eq_false_2; [done|].
    rewrite list_elem_of_singleton. congruence.
Qed.

(** C5: the resolved configuration paths are [conf_source/base_env] and
    [conf_source/run_env], duplicates removed keeping the first
    occurrence, where [run_env] is [env] when it is non-empty and
    [default_run_env] otherwise; equal environments give one path, and the
    base path always comes first. *)
Theorem conf_paths_resolved (self : ConfigLoader.t) :
  let under e :=
    PurePath.str (PurePath.truediv (PurePath.parse (conf_source self)) e) in
  (run_env self = match env self with
                  | Some e => if decide (e = "") then default_run_env self else e
                  | None => default_run_env self
                  end)
  ∧ conf_paths self
    = (if decide (under (base_env self) = under (run_env self))
       then [under (base_env self)]
       else [under (base_env self); under (run_env self)])
  ∧ (run_env self = base_env self → conf_paths self = [under (base_env self)])
  ∧ head (conf_paths self) = Some (under (base_env self)).
Proof.
  intros under.
  assert (Hpaths : conf_paths self
                   = if decide (under (base_env self) = under (run_env self))
                     then [under (base_env self)]
                     else [under (base_env self); under (run_env self)]).
  { unfold conf_paths, _build_conf_paths. apply _remove_duplicates_pair. }
  split; [|split; [exact Hpaths|split]].
  - unfold run_env. destruct (env self) as [e|]; [|done].
    destruct (decide (e = "")) as [->|Hne]; [done|].
    apply String.eqb_neq in Hne. by rewrite Hne.
  - intros Heq. rewrite Hpaths, Heq. by rewrite decide_True.
  - rewrite Hpaths. by destruct (decide _).
Qed.

(** With [env="base"] the loader of the example project searches the base
    directory alone. *)
Lemma conf_paths_resolved_witness :
  conf_paths (Examples.loader Examples.layered_fs (Some "base"))
  = ["/proj/conf/base"].
Proof.
  exact (proj1 (proj2 (proj2
           (conf_paths_resolved (Examples.loader Examples.layered_fs (Some "base")))))
           eq_refl).
Defined.

(** *** The essential sections *)

(** C6: called with no provided patterns, [get_essential_config t] hands
    the helper exactly the three patterns [t*], [t*/**] and [**/t*]. *)
Theorem get_essential_config_default_patterns
    (fs : filesystem) (self : ConfigLoader.t) (t : string) :
  essential_patterns t PyNone
  = [PyStr (t +:+ "*"); PyStr (t +:+ "*/**"); PyStr ("**/" +:+ t +:+ "*")]
  ∧ List.filter is_discover (get_essential_config t PyNone fs self).2
    = [Discover (conf_paths self)
         [PyStr (t +:+ "*"); PyStr (t +:+ "*/**"); PyStr ("**/" +:+ t +:+ "*")]].
Proof.
  split; [done|].
  rewrite get_essential_config_unfold. cbn zeta.
  change (essential_patterns t PyNone)
    with [PyStr (t +:+ "*"); PyStr (t +:+ "*/**"); PyStr ("**/" +:+ t +:+ "*")].
  destruct (common._get_config_from_patterns _ _ _) as [e|c]; [|done].
  by destruct (is_missing e).
Qed.

(** C4: [get_essential_config] warns and returns the empty mapping exactly
    when the helper raises the missing-configuration error; any other
    error of the helper reaches the caller unchanged, and a mapping the
    helper returns is returned as it is. *)
Theorem get_essential_config_downgrade
    (fs : filesystem) (self : ConfigLoader.t) (t : string) (provided : pyval) :
  let pats := essential_patterns t provided in
  let r := common._get_config_from_patterns fs (conf_paths self) pats in
  let out := get_essential_config t provided fs self in
  (∀ e, r = inl e → is_missing e = true →
        out = (inr ∅, self, [Discover (conf_paths self) pats; Warn e]))
  ∧ (∀ e, r = inl e → is_missing e = false →
          out = (inl e, self, [Discover (conf_paths self) pats]))
  ∧ (∀ c, r = inr c → out = (inr c, self, [Discover (conf_paths self) pats]))
  ∧ ((out.1.1 = inr ∅ ∧ existsb is_warn out.2 = true)
     ↔ ∃ ps ds, r = inl (MissingConfigException ps ds)).
Proof.
  intros pats r out. subst out.
  rewrite get_essential_config_unfold. cbn zeta. fold pats. fold r.
  split; [|split; [|split; [|split]]].
  - intros e -> He. by rewrite He.
  - intros e -> He. by rewrite He.
  - by intros c ->.
  - destruct r as [e|c]; [|by intros [_ ?]].
    destruct e; cbn; try (by intros [? _]); eauto.
  - intros (ps & ds & ->). done.
Qed.

(** In a project without any file, the credentials section is downgraded
    to the empty mapping with a warning. *)
Lemma get_essential_config_downgrade_witness :
  get_essential_config "credentials" PyNone Examples.bare_fs Examples.bare
  = (inr ∅, Examples.bare,
     [Discover ["/proj/conf/base"; "/proj/conf/local"]
        (essential_patterns "credentials" PyNone);
      Warn (MissingConfigException
              ["credentials*"; "credentials*/**"; "**/credentials*"]
              ["/proj/conf/base"; "/proj/conf/local"])]).
Proof.
  exact (proj1 (get_essential_config_downgrade Examples.bare_fs Examples.bare
                  "credentials" PyNone) _ eq_refl eq_refl).
Defined.

(** *** Retrieval *)

(** C9: [get] leaves the instance as it found it, so that a second call
    with the same patterns on the same filesystem has the same outcome:
    the same mapping, or the same error. *)
Theorem get_idempotent (fs : filesystem) (self : ConfigLoader.t)
    (patterns : list string) :
  (get patterns fs self).1.2 = self
  ∧ (get patterns fs (get patterns fs self).1.2).1.1 = (get patterns fs self).1.1
  ∧ (∀ c, (get patterns fs self).1.1 = inr c →
          (c1 ← get patterns; c2 ← get patterns; mret (c1, c2)) fs self
          = (inr (c, c), self, (get patterns fs self).2 ++ (get patterns fs self).2)).
Proof.
  assert (Hself : (get patterns fs self).1.2 = self).
  { rewrite get_unfold. by destruct (cached self patterns). }
  split; [exact Hself|split; [by rewrite Hself|]].
  intros c Hc. unfold mbind, M_bind, mret, M_ret.
  destruct (get patterns fs self) as [[r self1] tr] eqn:Hget.
  cbn in Hself, Hc. subst self1 r. rewrite Hget. cbn.
  by rewrite app_nil_r.
Qed.

(** Two successive calls on the layered project return the same merged
    catalog. *)
Lemma get_idempotent_witness :
  (c1 ← get ["catalog*"]; c2 ← get ["catalog*"]; mret (c1, c2))
    Examples.layered_fs Examples.layered
  = (inr (Examples.ints [("a", 1%Z); ("b", 3%Z); ("c", 4%Z)],
          Examples.ints [("a", 1%Z); ("b", 3%Z); ("c", 4%Z)]),
     Examples.layered,
     [Discover ["/proj/conf/base"; "/proj/conf/local"] [PyStr "catalog*"];
      Discover ["/proj/conf/base"; "/proj/conf/local"] [PyStr "catalog*"]]).
Proof.
  exact (proj2 (proj2 (get_idempotent Examples.layered_fs Examples.layered
                         ["catalog*"])) _ eq_refl).
Defined.

(** C2, as the code has it: a single pattern that is a key of the mapping
    is answered from the mapping, with no call of the helper, when the
    stored config is not empty. *)
Theorem get_fast_path (fs : filesystem) (self : ConfigLoader.t)
    (p : string) (v : config) :
  mapping self !! p = Some v →
  v ≠ ∅ →
  get [p] fs self = (inr v, self, []).
Proof.
  intros Hp Hv. rewrite get_unfold. unfold cached, truthy_config.
  rewrite Hp. by rewrite bool_decide_eq_true_2.
Qed.

Lemma get_fast_path_witness :
  get ["catalog"] Examples.layered_fs Examples.layered
  = (inr (Examples.ints [("a", 1%Z); ("b", 3%Z); ("c", 4%Z)]),
     Examples.layered, []).
Proof.
  apply get_fast_path; [reflexivity|].
  intros H. apply (f_equal (fun m : config => m !! "a")) in H.
  vm_compute in H. discriminate H.
Defined.

(** C2 as stated fails: [logging] is a key of the mapping of the loader
    built on the layered project, its stored config is empty, and
    [get("logging")] calls the helper, which raises. *)
Lemma get_fast_path_counterexample :
  mapping Examples.layered !! "logging" = Some ∅
  ∧ get ["logging"] Examples.layered_fs Examples.layered
    = (inl (MissingConfigException ["logging"]
              ["/proj/conf/base"; "/proj/conf/local"]),
       Examples.layered,
       [Discover ["/proj/conf/base"; "/proj/conf/local"] [PyStr "logging"]]).
Proof. split; reflexivity. Qed.

(** C10: a single pattern that is a key of the mapping with an empty
    stored config is not answered from the mapping: [get] calls the helper
    with that pattern and returns what the helper does, and this can be
    the missing-configuration error. *)
Theorem get_empty_cached_falls_through :
  (∀ (fs : filesystem) (self : ConfigLoader.t) (p : string),
     mapping self !! p = Some ∅ →
     get [p] fs self
     = (common._get_config_from_patterns fs (conf_paths self) [PyStr p], self,
        [Discover (conf_paths self) [PyStr p]]))
  ∧ (∃ (fs : filesystem) (self : ConfigLoader.t) (p : string) ps ds,
       mapping self !! p = Some ∅
       ∧ (get [p] fs self).1.1 = inl (MissingConfigException ps ds)).
Proof.
  split.
  - intros fs self p Hp. rewrite get_unfold. unfold cached, truthy_config.
    rewrite Hp. rewrite bool_decide_eq_false_2 by (intros H; by apply H).
    done.
  - exists Examples.bare_fs, Examples.bare, "credentials".
    eexists _, _. split; reflexivity.
Qed.

Lemma get_empty_cached_falls_through_witness :
  get ["parameters"] Examples.bare_fs Examples.bare
  = (inl (MissingConfigException ["parameters"]
            ["/proj/conf/base"; "/proj/conf/local"]),
     Examples.bare,
     [Discover ["/proj/conf/base"; "/proj/conf/local"] [PyStr "parameters"]]).
Proof.
  exact (proj1 get_empty_cached_falls_through Examples.bare_fs Examples.bare
           "parameters" eq_refl).
Defined.

(** *** No file matches *)

Lemma load_dirs_nothing fs pats ds :
  (∀ d, d ∈ ds → common.lookup_config_filepaths fs d pats = []) →
  ∃ per_dir, common.load_dirs fs pats ds = inr per_dir
             ∧ common.files_found per_dir = 0.
Proof.
  induction ds as [|d ds IH]; intros Hnone.
  - by exists [].
  - destruct IH as (per_dir & Hper & Hzero).
    { intros d' Hd'. apply Hnone. by right. }
    exists ((0, ∅) :: per_dir). cbn. unfold common.load_dir.
    rewrite (Hnone d) by (by left). cbn. by rewrite Hper.
Qed.

(** C3, as the code has it: on the discovery path, when no file matches
    any pattern in any resolved directory, [get] raises the
    missing-configuration error naming the patterns and the directories. *)
Theorem get_nothing_found (fs : filesystem) (self : ConfigLoader.t)
    (patterns : list string) :
  cached self patterns = None →
  (∀ d, d ∈ conf_paths self →
        common.lookup_config_filepaths fs d patterns = []) →
  get patterns fs self
  = (inl (MissingConfigException patterns (conf_paths self)), self,
     [Discover (conf_paths self) (PyStr <$> patterns)]).
Proof.
  intros Hslow Hnone. rewrite get_unfold, Hslow.
  unfold common.discover_and_merge.
  destruct (load_dirs_nothing fs patterns (conf_paths self) Hnone)
    as (per_dir & -> & ->).
  done.
Qed.

Lemma get_nothing_found_witness :
  get ["nothing*"] Examples.layered_fs Examples.layered
  = (inl (MissingConfigException ["nothing*"]
            ["/proj/conf/base"; "/proj/conf/local"]),
     Examples.layered,
     [Discover ["/proj/conf/base"; "/proj/conf/local"] [PyStr "nothing*"]]).
Proof.
  apply (get_nothing_found Examples.layered_fs Examples.layered ["nothing*"]).
  - reflexivity.
  - intros d Hd.
    change (conf_paths Examples.layered)
      with ["/proj/conf/base"; "/proj/conf/local"] in Hd.
    apply elem_of_cons in Hd as [->|Hd]; [reflexivity|].
    apply list_elem_of_singleton in Hd as ->. reflexivity.
Defined.

(** C3 as stated fails: no file of the layered project matches
    [nothing*], and [get("nothing*")] does not return an empty mapping. *)
Lemma get_nothing_found_counterexample :
  cached Examples.layered ["nothing*"] = None
  ∧ common.lookup_config_filepaths Examples.layered_fs "/proj/conf/base"
      ["nothing*"] = []
  ∧ common.lookup_config_filepaths Examples.layered_fs "/proj/conf/local"
      ["nothing*"] = []
  ∧ conf_paths Examples.layered = ["/proj/conf/base"; "/proj/conf/local"]
  ∧ (get ["nothing*"] Examples.layered_fs Examples.layered).1.1 ≠ inr ∅.
Proof. repeat split; try reflexivity. intros H. discriminate H. Qed.

(** *** Construction *)

Arguments get_essential_config : simpl never.


(** *** Precedence between directories *)

(** A directory whose merged mapping has a key had a file. *)
Lemma load_dir_found fs pats d n (c : config) k v :
  common.load_dir fs pats d = inr (n, c) → c !! k = Some v → n ≠ 0.
Proof.
  unfold common.load_dir.
  destruct (common.lookup_config_filepaths fs d pats) as [|f found].
  - cbn. intros [= <- <-]. by rewrite lookup_empty.
  - destruct (common.load_files (f :: found)) as [e|parsed]; [done|].
    destruct (common.merge_files ∅ ∅ parsed); [done|].
    by intros [= <- <-].
Qed.

(** Overlaying keeps, for a key, the value of the last mapping that has
    it. *)
Lemma overlay_last_wins (before after : list config) (cB : config) k v :
  cB !! k = Some v →
  (∀ c : config, c ∈ after → c !! k = None) →
  common.overlay (before ++ cB :: after) !! k = Some v.
Proof.
  intros HB Hafter. unfold common.overlay.
  rewrite fold_left_app. cbn.
  generalize (fold_left (λ acc c : config, c ∪ acc) before ∅). intros acc.
  assert (Hstart : (cB ∪ acc) !! k = Some v) by (by apply lookup_union_Some_l).
  revert Hstart. generalize (cB ∪ acc). clear HB.
  induction after as [|c after IH]; intros acc' Hacc'; [done|].
  cbn. apply IH.
  - intros c' Hc'. apply Hafter. by right.
  - rewrite lookup_union_r; [done|]. apply Hafter. by left.
Qed.

(** C7: when a key is defined in the earlier directory A and in the later
    directory B, the mapping [get] returns on the discovery path is B's
    mapping laid over A's, and maps the key to B's value; on the layered
    project [get("catalog*")] returns [{a: 1, b: 3, c: 4}]. *)
Theorem get_last_directory_wins :
  (∀ (fs : filesystem) (self : ConfigLoader.t) (patterns : list string)
     (A B : string) (nA nB : nat) (cA cB : config) (k : string) (vA vB : pyval),
     cached self patterns = None →
     conf_paths self = [A; B] →
     common.load_dir fs patterns A = inr (nA, cA) →
     common.load_dir fs patterns B = inr (nB, cB) →
     cA !! k = Some vA →
     cB !! k = Some vB →
     (get patterns fs self).1.1 = inr (cB ∪ cA)
     ∧ (cB ∪ cA) !! k = Some vB)
  ∧ get ["catalog*"] Examples.layered_fs Examples.layered
    = (inr (Examples.ints [("a", 1%Z); ("b", 3%Z); ("c", 4%Z)]),
       Examples.layered,
       [Discover ["/proj/conf/base"; "/proj/conf/local"] [PyStr "catalog*"]]).
Proof.
  split; [|reflexivity].
  intros fs self patterns A B nA nB cA cB k vA vB Hslow Hpaths HA HB HkA HkB.
  split; [|by apply lookup_union_Some_l].
  rewrite get_unfold, Hslow, Hpaths. cbn [fst snd].
  unfold common.discover_and_merge. cbn [common.load_dirs].
  rewrite HA, HB. cbn.
  pose proof (load_dir_found _ _ _ _ _ _ _ HA HkA) as HnA.
  destruct nA as [|nA]; [done|]. cbn.
  unfold common.overlay. cbn. by rewrite (right_id_L ∅ (∪)).
Qed.

(** The key [b] of the layered project resolves to the value of the local
    directory. *)
Lemma get_last_directory_wins_witness :
  (get ["catalog*"] Examples.layered_fs Examples.layered).1.1
  = inr (Examples.ints [("b", 3%Z); ("c", 4%Z)]
         ∪ Examples.ints [("a", 1%Z); ("b", 2%Z)])
  ∧ (Examples.ints [("b", 3%Z); ("c", 4%Z)]
     ∪ Examples.ints [("a", 1%Z); ("b", 2%Z)]) !! "b" = Some (PyInt 3).
Proof.
  exact (proj1 get_last_directory_wins Examples.layered_fs Examples.layered
           ["catalog*"] "/proj/conf/base" "/proj/conf/local" 1 1
           (Examples.ints [("a", 1%Z); ("b", 2%Z)])
           (Examples.ints [("b", 3%Z); ("c", 4%Z)])
           "b" (PyInt 2) (PyInt 3)
           eq_refl eq_refl eq_refl eq_refl eq_refl eq_refl).
Defined.

(** *** Keys produced twice in one directory *)

Lemma find_collision_None (owner : gmap string string) (c : config) :
  common.find_collision owner c = None
  ↔ ∀ k, is_Some (c !! k) → owner !! k = None.
Proof.
  unfold common.find_collision.
  rewrite head_None, map_to_list_empty_iff, map_empty.
  split; intros H k.
  - intros [v Hv]. specialize (H k).
    rewrite map_lookup_zip_with, Hv in H.
    by destruct (owner !! k).
  - rewrite map_lookup_zip_with.
    destruct (owner !! k) as [p|] eqn:Hp; [|done].
    destruct (c !! k) as [v|] eqn:Hv; [|done].
    rewrite H in Hp by (by rewrite Hv). done.
Qed.

Lemma find_collision_Some (owner : gmap string string) (c : config) k p0 :
  common.find_collision owner c = Some (k, p0) →
  owner !! k = Some p0 ∧ is_Some (c !! k).
Proof.
  unfold common.find_collision. intros H.
  apply head_Some_elem_of, elem_of_map_to_list in H.
  apply map_lookup_zip_with_Some in H as (p & v & -> & Hp & Hv).
  split; [done|by exists v].
Qed.

(** A merge that succeeds met no key twice: no file produces a key that
    [owner] already has, and no two files produce the same key. *)
Lemma merge_files_ok (parsed : list (string * config)) :
  ∀ (owner : gmap string string) (acc c : config),
    common.merge_files owner acc parsed = inr c →
    (∀ j p (cj : config) k,
       parsed !! j = Some (p, cj) → is_Some (cj !! k) → owner !! k = None)
    ∧ (∀ i j p1 p2 (c1 c2 : config) k,
         i < j → parsed !! i = Some (p1, c1) → parsed !! j = Some (p2, c2) →
         is_Some (c1 !! k) → is_Some (c2 !! k) → False).
Proof.
  induction parsed as [|[p c0] parsed IH]; intros owner acc c Hok.
  - split; intros; by rewrite ?lookup_nil in *.
  - cbn in Hok.
    destruct (common.find_collision owner c0) as [[k0 p0]|] eqn:Hfind; [done|].
    rewrite find_collision_None in Hfind.
    destruct (IH _ _ _ Hok) as [IH1 IH2]. split.
    + intros [|j] q cj k Hj Hk.
      * cbn in Hj. injection Hj as <- <-. by apply Hfind.
      * cbn in Hj. specialize (IH1 j q cj k Hj Hk).
        by apply lookup_union_None in IH1 as [_ ?].
    + intros i [|j] p1 p2 c1 c2 k Hlt Hi Hj H1 H2; [lia|].
      destruct i as [|i]; cbn in Hi, Hj.
      * injection Hi as <- <-.
        specialize (IH1 j p2 c2 k Hj H2).
        apply lookup_union_None in IH1 as [IH1 _].
        rewrite lookup_fmap in IH1. destruct H1 as [v Hv].
        by rewrite Hv in IH1.
      * apply (IH2 i j p1 p2 c1 c2 k); [lia|done..].
Qed.

(** A merge that fails names a key, the file that produces it a second
    time, and the file that produced it first: a file of the list met
    earlier, or the file [owner] has for the key. *)
Lemma merge_files_err (parsed : list (string * config)) :
  ∀ (owner : gmap string string) (acc : config) e,
    common.merge_files owner acc parsed = inl e →
    ∃ k p0 p j (cj : config),
      e = ValueError_duplicate_key k p0 p
      ∧ parsed !! j = Some (p, cj) ∧ is_Some (cj !! k)
      ∧ (owner !! k = Some p0
         ∨ ∃ i (ci : config), i < j ∧ parsed !! i = Some (p0, ci)
                              ∧ is_Some (ci !! k)).
Proof.
  induction parsed as [|[p c0] parsed IH]; intros owner acc e Herr; [done|].
  cbn in Herr.
  destruct (common.find_collision owner c0) as [[k0 p0]|] eqn:Hfind.
  - injection Herr as <-. apply find_collision_Some in Hfind as [Hown Hk].
    exists k0, p0, p, 0, c0. eauto.
  - destruct (IH _ _ _ Herr) as (k & q0 & q & j & cj & -> & Hj & Hk & Hfirst).
    exists k, q0, q, (S j), cj. split; [done|]. split; [done|]. split; [done|].
    destruct Hfirst as [Hown|(i & ci & Hlt & Hi & Hki)].
    + apply lookup_union_Some_raw in Hown as [Hown|[_ Hown]]; [|by left].
      right. exists 0, c0. rewrite lookup_fmap in Hown.
      destruct (c0 !! k) as [v|] eqn:Hv; [|done].
      injection Hown as <-. split; [lia|]. split; [done|]. by exists v.
    + right. exists (S i), ci. split; [lia|done].
Qed.

(** What the parsed list of a directory holds, position by position. *)
Lemma load_files_lookup (l : list file) :
  ∀ parsed, common.load_files l = inr parsed →
    ∀ j p (c : config),
      parsed !! j = Some (p, c)
      ↔ ∃ f, l !! j = Some f ∧ f_path f = p ∧ f_parsed f = Some c.
Proof.
  induction l as [|f l IH]; intros parsed Hload.
  - injection Hload as <-. intros j p c. rewrite !lookup_nil.
    split; [done|]. by intros (? & ? & _).
  - cbn in Hload. destruct (f_parsed f) as [c0|] eqn:Hf; [|done].
    destruct (common.load_files l) as [e|rest]; [done|].
    injection Hload as <-. intros [|j] p c; cbn.
    + split.
      * intros [= <- <-]. by exists f.
      * intros (f' & [= <-] & <- & Hc). rewrite Hf in Hc. by injection Hc as <-.
    + by apply IH.
Qed.

Lemma load_files_total (l : list file) :
  (∀ f, f ∈ l → is_Some (f_parsed f)) →
  ∃ parsed, common.load_files l = inr parsed.
Proof.
  induction l as [|f l IH]; intros Hall; [by eexists|].
  cbn. destruct (Hall f) as [c ->]; [by left|].
  destruct IH as [rest ->]; [intros f' Hf'; apply Hall; by right|].
  by eexists.
Qed.

(** One directory whose matched files all parse: either its merge
    succeeds and no two of its files produce the same key, or it fails
    with a duplicate-key error naming a key and two of its files that
    both produce it. *)
Lemma load_dir_outcome fs pats d :
  (∀ f, f ∈ common.lookup_config_filepaths fs d pats → is_Some (f_parsed f)) →
  (∃ n c, common.load_dir fs pats d = inr (n, c)
          ∧ ∀ k p1 p2, ¬ collide (common.lookup_config_filepaths fs d pats) k p1 p2)
  ∨ (∃ k p1 p2, common.load_dir fs pats d = inl (ValueError_duplicate_key k p1 p2)
                ∧ collide (common.lookup_config_filepaths fs d pats) k p1 p2).
Proof.
  intros Hall. unfold common.load_dir.
  destruct (load_files_total _ Hall) as [parsed Hparsed]. rewrite Hparsed.
  pose proof (load_files_lookup _ _ Hparsed) as Hlookup.
  destruct (common.merge_files ∅ ∅ parsed) as [e|c] eqn:Hmerge.
  - right. apply merge_files_err in Hmerge
      as (k & p0 & p & j & cj & -> & Hj & Hk & [Hown|(i & ci & Hlt & Hi & Hki)]).
    { by rewrite lookup_empty in Hown. }
    exists k, p0, p. split; [done|].
    apply Hlookup in Hi as (f1 & Hf1 & Hp1 & Hc1).
    apply Hlookup in Hj as (f2 & Hf2 & Hp2 & Hc2).
    exists i, j, f1, f2, ci, cj. done.
  - left. eexists _, c. split; [done|].
    intros k p1 p2 (i & j & f1 & f2 & c1 & c2 & Hlt & Hf1 & Hf2 & Hp1 & Hp2
                    & Hc1 & Hc2 & Hk1 & Hk2).
    apply merge_files_ok in Hmerge as [_ Hdisjoint].
    apply (Hdisjoint i j p1 p2 c1 c2 k); [done| | |done..].
    + apply Hlookup. by exists f1.
    + apply Hlookup. by exists f2.
Qed.

(** Step 1 over directories whose matched files all parse: if some
    directory has two files producing the same key, the step fails with a
    duplicate-key error naming such a key and such files of a directory. *)
Lemma load_dirs_duplicate fs pats ds :
  (∀ d f, d ∈ ds → f ∈ common.lookup_config_filepaths fs d pats →
          is_Some (f_parsed f)) →
  (∃ d k p1 p2,
     d ∈ ds ∧ collide (common.lookup_config_filepaths fs d pats) k p1 p2) →
  ∃ k p1 p2 d,
    common.load_dirs fs pats ds = inl (ValueError_duplicate_key k p1 p2)
    ∧ d ∈ ds ∧ collide (common.lookup_config_filepaths fs d pats) k p1 p2.
Proof.
  induction ds as [|d0 ds IH]; intros Hall (d & k & p1 & p2 & Hd & Hcollide).
  - by apply elem_of_nil in Hd.
  - cbn. destruct (load_dir_outcome fs pats d0) as
      [(n & c & -> & Hnone)|(k' & q1 & q2 & -> & Hcollide')].
    + intros f Hf. apply (Hall d0 f); [by left|done].
    + apply elem_of_cons in Hd as [->|Hd]; [by destruct (Hnone k p1 p2)|].
      destruct IH as (k' & q1 & q2 & d' & -> & Hd' & Hcollide').
      * intros d' f Hd' Hf. apply (Hall d' f); [by right|done].
      * by exists d, k, p1, p2.
      * exists k', q1, q2, d'. split; [done|]. split; [by right|done].
    + exists k', q1, q2, d0. split; [done|]. split; [by left|done].
Qed.

(** A parse failure names a matched file that does not parse. *)
Lemma load_files_err (l : list file) e :
  common.load_files l = inl e →
  ∃ f, f ∈ l ∧ f_parsed f = None ∧ e = ParseError (f_path f).
Proof.
  induction l as [|f l IH]; [done|]. cbn.
  destruct (f_parsed f) as [c|] eqn:Hf.
  - destruct (common.load_files l) as [e'|rest]; [|done].
    intros [= <-]. destruct (IH eq_refl) as (f' & Hin & Hnone & ->).
    exists f'. split; [by right|done].
  - intros [= <-]. exists f. split; [by left|done].
Qed.

(** One directory, whatever its files: a parse error for a matched file
    that does not parse, or a duplicate-key error for two matched files
    that produce the same key, or a mapping and then no two matched files
    produce the same key. *)
Lemma load_dir_cases fs pats d :
  (∃ f, common.load_dir fs pats d = inl (ParseError (f_path f))
        ∧ f ∈ common.lookup_config_filepaths fs d pats ∧ f_parsed f = None)
  ∨ (∃ k p1 p2, common.load_dir fs pats d = inl (ValueError_duplicate_key k p1 p2)
                ∧ collide (common.lookup_config_filepaths fs d pats) k p1 p2)
  ∨ (∃ n c, common.load_dir fs pats d = inr (n, c)
            ∧ ∀ k p1 p2,
                ¬ collide (common.lookup_config_filepaths fs d pats) k p1 p2).
Proof.
  unfold common.load_dir.
  destruct (common.load_files (common.lookup_config_filepaths fs d pats))
    as [e|parsed] eqn:Hparsed.
  - left. apply load_files_err in Hparsed as (f & Hin & Hnone & ->).
    by exists f.
  - right.
    pose proof (load_files_lookup _ _ Hparsed) as Hlookup.
    destruct (common.merge_files ∅ ∅ parsed) as [e|c] eqn:Hmerge.
    + left. apply merge_files_err in Hmerge
        as (k & p0 & p & j & cj & -> & Hj & Hk
            & [Hown|(i & ci & Hlt & Hi & Hki)]).
      { by rewrite lookup_empty in Hown. }
      exists k, p0, p. split; [done|].
      apply Hlookup in Hi as (f1 & Hf1 & Hp1 & Hc1).
      apply Hlookup in Hj as (f2 & Hf2 & Hp2 & Hc2).
      exists i, j, f1, f2, ci, cj. done.
    + right. eexists _, c. split; [done|].
      intros k p1 p2 (i & j & f1 & f2 & c1 & c2 & Hlt & Hf1 & Hf2 & Hp1 & Hp2
                      & Hc1 & Hc2 & Hk1 & Hk2).
      apply merge_files_ok in Hmerge as [_ Hdisjoint].
      apply (Hdisjoint i j p1 p2 c1 c2 k); [done| | |done..].
      * apply Hlookup. by exists f1.
      * apply Hlookup. by exists f2.
Qed.

(** Step 1 over directories one of which has two files producing the
    same key: the step fails, with a duplicate-key error or with the
    parse error of a matched file. *)
Lemma load_dirs_collision fs pats ds :
  (∃ d k p1 p2,
     d ∈ ds ∧ collide (common.lookup_config_filepaths fs d pats) k p1 p2) →
  ∃ e, common.load_dirs fs pats ds = inl e
       ∧ (names_duplicate fs pats ds e ∨ names_unparsable fs pats ds e).
Proof.
  induction ds as [|d0 ds IH]; intros (d & k & p1 & p2 & Hd & Hcollide).
  - by apply elem_of_nil in Hd.
  - cbn. destruct (load_dir_cases fs pats d0) as
      [(f & -> & Hin & Hnone)
      |[(k' & q1 & q2 & -> & Hcollide')|(n & c & -> & Hfree)]].
    + eexists. split; [done|]. right. exists d0, f.
      split; [done|]. split; [by left|done].
    + eexists. split; [done|]. left. exists k', q1, q2, d0.
      split; [done|]. split; [by left|done].
    + apply elem_of_cons in Hd as [->|Hd]; [by destruct (Hfree k p1 p2)|].
      destruct IH as (e & -> & He); [by exists d, k, p1, p2|].
      exists e. split; [done|].
      destruct He as [(k' & q1 & q2 & d' & -> & Hd' & Hc')
                     |(d' & f & -> & Hd' & Hin & Hnone)].
      * left. exists k', q1, q2, d'. split; [done|]. split; [by right|done].
      * right. exists d', f. split; [done|]. split; [by right|done].
Qed.

(** When the matched files of the directory with the two files, and of
    the directories searched before it, all parse, the step fails with a
    duplicate-key error. *)
Lemma load_dirs_collision_parsed fs pats (before after : list string) d k p1 p2 :
  (∀ d' f, d' ∈ before ++ [d] →
           f ∈ common.lookup_config_filepaths fs d' pats →
           is_Some (f_parsed f)) →
  collide (common.lookup_config_filepaths fs d pats) k p1 p2 →
  ∃ k' q1 q2,
    common.load_dirs fs pats (before ++ d :: after)
    = inl (ValueError_duplicate_key k' q1 q2).
Proof.
  induction before as [|d0 before IH]; intros Hall Hcollide; cbn.
  - destruct (load_dir_outcome fs pats d) as
      [(n & c & _ & Hfree)|(k' & q1 & q2 & -> & _)].
    + intros f Hf. apply (Hall d f); [by left|done].
    + by destruct (Hfree k p1 p2).
    + by exists k', q1, q2.
  - destruct (load_dir_outcome fs pats d0) as
      [(n & c & -> & _)|(k' & q1 & q2 & -> & _)].
    + intros f Hf. apply (Hall d0 f); [by left|done].
    + destruct IH as (k' & q1 & q2 & ->); [|done|by exists k', q1, q2].
      intros d' f Hd' Hf. apply (Hall d' f); [by right|done].
    + by exists k', q1, q2.
Qed.

(** C8, as the code has it: when two files of one resolved directory
    produce the same top-level key, discovery-and-merge returns no
    mapping. It fails with a duplicate-key error naming a key and two
    files of one directory that both produce it, or with the parse error
    of a matched file that does not parse; it is the duplicate-key error
    when the matched files of that directory and of the directories
    searched before it all parse. [get] on the discovery path and
    [get_essential_config] raise that same error, with no warning. *)
Theorem duplicate_key_is_fatal
    (fs : filesystem) (self : ConfigLoader.t) (patterns : list string)
    (d k p1 p2 : string) :
  d ∈ conf_paths self →
  collide (common.lookup_config_filepaths fs d patterns) k p1 p2 →
  ∃ e,
    common.discover_and_merge fs (conf_paths self) patterns = inl e
    ∧ (names_duplicate fs patterns (conf_paths self) e
       ∨ names_unparsable fs patterns (conf_paths self) e)
    ∧ (∀ before after,
         conf_paths self = before ++ d :: after →
         (∀ d' f, d' ∈ before ++ [d] →
                  f ∈ common.lookup_config_filepaths fs d' patterns →
                  is_Some (f_parsed f)) →
         names_duplicate fs patterns (conf_paths self) e)
    ∧ (cached self patterns = None →
       get patterns fs self
       = (inl e, self, [Discover (conf_paths self) (PyStr <$> patterns)]))
    ∧ (∀ t provided,
         as_strings (essential_patterns t provided) = Some patterns →
         get_essential_config t provided fs self
         = (inl e, self,
            [Discover (conf_paths self) (essential_patterns t provided)])).
Proof.
  intros Hd Hcollide.
  destruct (load_dirs_collision fs patterns (conf_paths self))
    as (e & Hdirs & He); [by exists d, k, p1, p2|].
  assert (Hfail : common.discover_and_merge fs (conf_paths self) patterns
                  = inl e).
  { unfold common.discover_and_merge. by rewrite Hdirs. }
  assert (Hfatal : is_missing e = false).
  { by destruct He as [(? & ? & ? & ? & -> & _)|(? & ? & -> & _)]. }
  exists e. split; [done|]. split; [done|]. split; [|split].
  - intros before after Hsplit Hall.
    destruct He as [He|(d' & f & -> & _)]; [done|].
    destruct (load_dirs_collision_parsed fs patterns before after d k p1 p2
                Hall Hcollide) as (k' & q1 & q2 & Hdup).
    rewrite <- Hsplit, Hdirs in Hdup. done.
  - intros Hslow. by rewrite get_unfold, Hslow, Hfail.
  - intros t provided Hpats. rewrite get_essential_config_unfold. cbn zeta.
    unfold common._get_config_from_patterns. by rewrite Hpats, Hfail, Hfatal.
Qed.

(** The parameters section of a project whose base directory has two
    parameter files producing [x], both of which parse. *)
Lemma duplicate_key_is_fatal_witness :
  ∃ e,
    common.discover_and_merge Examples.clash_fs
      (conf_paths Examples.under_construction)
      ["parameters*"; "parameters*/**"; "**/parameters*"] = inl e
    ∧ (names_duplicate Examples.clash_fs
         ["parameters*"; "parameters*/**"; "**/parameters*"]
         (conf_paths Examples.under_construction) e
       ∨ names_unparsable Examples.clash_fs
           ["parameters*"; "parameters*/**"; "**/parameters*"]
           (conf_paths Examples.under_construction) e)
    ∧ (∀ before after,
         conf_paths Examples.under_construction
         = before ++ "/proj/conf/base" :: after →
         (∀ d' f, d' ∈ before ++ ["/proj/conf/base"] →
                  f ∈ common.lookup_config_filepaths Examples.clash_fs d'
                        ["parameters*"; "parameters*/**"; "**/parameters*"] →
                  is_Some (f_parsed f)) →
         names_duplicate Examples.clash_fs
           ["parameters*"; "parameters*/**"; "**/parameters*"]
           (conf_paths Examples.under_construction) e)
    ∧ (cached Examples.under_construction
         ["parameters*"; "parameters*/**"; "**/parameters*"] = None →
       get ["parameters*"; "parameters*/**"; "**/parameters*"]
         Examples.clash_fs Examples.under_construction
       = (inl e, Examples.under_construction,
          [Discover (conf_paths Examples.under_construction)
             (PyStr <$> ["parameters*"; "parameters*/**"; "**/parameters*"])]))
    ∧ (∀ t provided,
         as_strings (essential_patterns t provided)
         = Some ["parameters*"; "parameters*/**"; "**/parameters*"] →
         get_essential_config t provided Examples.clash_fs
           Examples.under_construction
         = (inl e, Examples.under_construction,
            [Discover (conf_paths Examples.under_construction)
               (essential_patterns t provided)])).
Proof.
  apply (duplicate_key_is_fatal Examples.clash_fs Examples.under_construction
           ["parameters*"; "parameters*/**"; "**/parameters*"]
           "/proj/conf/base" "x"
           "/proj/conf/base/parameters.yml"
           "/proj/conf/base/parameters_model.yml").
  - change (conf_paths Examples.under_construction)
      with ["/proj/conf/base"; "/proj/conf/local"]. apply list_elem_of_here.
  - exists 0, 1, (mk_file "/proj/conf/base/parameters.yml"
                    (Some (Examples.ints [("x", 1%Z)]))),
      (mk_file "/proj/conf/base/parameters_model.yml"
         (Some (Examples.ints [("x", 2%Z)]))),
      (Examples.ints [("x", 1%Z)]), (Examples.ints [("x", 2%Z)]).
    split; [lia|]. split; [reflexivity|]. split; [reflexivity|].
    split; [reflexivity|]. split; [reflexivity|].
    split; [reflexivity|]. split; [reflexivity|].
    split; eexists; reflexivity.
Defined.

(** C8 as stated fails: two matched files of the base directory produce
    [x], a third matched file of that directory does not parse, and
    discovery-and-merge fails with the parse error of the third, not with
    a duplicate-key error. *)
Lemma duplicate_key_counterexample :
  "/proj/conf/base" ∈ conf_paths Examples.under_construction
  ∧ collide (common.lookup_config_filepaths Examples.clash_broken_fs
               "/proj/conf/base"
               ["parameters*"; "parameters*/**"; "**/parameters*"])
      "x" "/proj/conf/base/parameters.yml"
      "/proj/conf/base/parameters_model.yml"
  ∧ common.discover_and_merge Examples.clash_broken_fs
      (conf_paths Examples.under_construction)
      ["parameters*"; "parameters*/**"; "**/parameters*"]
    = inl (ParseError "/proj/conf/base/parameters_a.yml")
  ∧ (get_essential_config "parameters" PyNone Examples.clash_broken_fs
       Examples.under_construction).1.1
    = inl (ParseError "/proj/conf/base/parameters_a.yml").
Proof.
  split; [|split; [|split; reflexivity]].
  - change (conf_paths Examples.under_construction)
      with ["/proj/conf/base"; "/proj/conf/local"]. apply list_elem_of_here.
  - exists 1, 2, (mk_file "/proj/conf/base/parameters.yml"
                    (Some (Examples.ints [("x", 1%Z)]))),
      (mk_file "/proj/conf/base/parameters_model.yml"
         (Some (Examples.ints [("x", 2%Z)]))),
      (Examples.ints [("x", 1%Z)]), (Examples.ints [("x", 2%Z)]).
    split; [lia|]. split; [reflexivity|]. split; [reflexivity|].
    split; [reflexivity|]. split; [reflexivity|].
    split; [reflexivity|]. split; [reflexivity|].
    split; eexists; reflexivity.
Qed.

(** *** Scenarios *)

(** Construction on the project with two clashing parameter files stops
    at the parameters section with the duplicate-key error; the catalog,
    which has no file, was downgraded before with a warning. *)
Example construction_stops_on_duplicate_key :
  (new Examples.clash_fs "/proj/conf" PyNone PyNone PyNone PyNone None PyNone).1.1
  = inl (ValueError_duplicate_key "x" "/proj/conf/base/parameters.yml"
           "/proj/conf/base/parameters_model.yml").
Proof. reflexivity. Qed.

(** A file that does not parse is reported before any merge of its
    directory. *)
Example parse_error_is_fatal :
  get_essential_config "credentials" PyNone
    [mk_file "/proj/conf/base/credentials.yml" None]
    Examples.under_construction
  = (inl (ParseError "/proj/conf/base/credentials.yml"),
     Examples.under_construction,
     [Discover ["/proj/conf/base"; "/proj/conf/local"]
        (essential_patterns "credentials" PyNone)]).
Proof. reflexivity. Qed.

(** The recursive wildcard finds a file at any depth, the top level
    included. *)
Example recursive_wildcard_any_depth :
  Glob.matches "**/parameters.yml" ["parameters.yml"] = true
  ∧ Glob.matches "**/parameters.yml" ["experiment1"; "parameters.yml"] = true
  ∧ Glob.matches "**/parameters.yml" ["a"; "b"; "c"; "parameters.yml"] = true
  ∧ Glob.matches "**/parameters.yml" ["a"; "model_parameters.yml"] = false.
Proof. repeat split; reflexivity. Qed.

(** With [env] equal to [base_env], discovery visits one directory. *)
Example single_directory_when_env_is_base :
  (get ["catalog*"] Examples.layered_fs
     (Examples.loader Examples.layered_fs (Some "base"))).2
  = [Discover ["/proj/conf/base"] [PyStr "catalog*"]].
Proof. reflexivity. Qed.

(* ===================================================================== *)
(** ** Further properties of the loader *)
(* ===================================================================== *)

(** *** One section request *)

Lemma get_essential_config_events fs self t provided :
  get_essential_config t provided fs self
  = (match fatal (common._get_config_from_patterns fs (conf_paths self)
                    (essential_patterns t provided)) with
     | Some e => inl e
     | None => inr (downgraded (common._get_config_from_patterns fs
                                  (conf_paths self)
                                  (essential_patterns t provided)))
     end,
     self,
     section_events (conf_paths self) (essential_patterns t provided)
       (common._get_config_from_patterns fs (conf_paths self)
          (essential_patterns t provided))).
Proof.
  rewrite get_essential_config_unfold. cbn zeta.
  unfold section_events, fatal, downgraded.
  destruct (common._get_config_from_patterns _ _ _) as [e|c]; [|done].
  by destruct (is_missing e).
Qed.

Lemma fatal_not_missing r e : fatal r = Some e → is_missing e = false.
Proof.
  destruct r as [e'|c]; cbn; [|done].
  destruct (is_missing e') eqn:He'; [done|]. by intros [= <-].
Qed.

(** [get_essential_config] never raises the missing-configuration error
    and leaves the instance as it found it, whatever it is given. *)
Theorem get_essential_config_never_missing
    (fs : filesystem) (self : ConfigLoader.t) (t : string) (provided : pyval) :
  match (get_essential_config t provided fs self).1.1 with
  | inl e => is_missing e = false
  | inr _ => True
  end
  ∧ (get_essential_config t provided fs self).1.2 = self.
Proof.
  rewrite get_essential_config_events. cbn. split; [|done].
  destruct (fatal _) as [e|] eqn:Hfatal; [|done].
  by apply fatal_not_missing in Hfatal.
Qed.

(** The helper always receives three patterns from
    [get_essential_config]: a provided value that is true stands in for
    [t*] alone, and [t*/**] and [**/t*] are searched whatever is
    provided. *)
Theorem get_essential_config_three_patterns
    (fs : filesystem) (self : ConfigLoader.t) (t : string) (provided : pyval) :
  List.filter is_discover (get_essential_config t provided fs self).2
  = [Discover (conf_paths self)
       [if truthy provided then provided else PyStr (t +:+ "*");
        PyStr (t +:+ "*/**"); PyStr ("**/" +:+ t +:+ "*")]].
Proof.
  rewrite get_essential_config_events. cbn.
  unfold essential_patterns, py_or.
  destruct (common._get_config_from_patterns _ _ _) as [e|c]; [|done].
  by destruct (is_missing e).
Qed.

(** [get_essential_config(t)] is [get] on the three patterns [t*],
    [t*/**] and [**/t*], with the missing-configuration error turned into the empty mapping: the two
    call the helper with the same arguments, return the same mapping and
    raise the same other errors; [get] itself never warns. *)
Theorem get_essential_config_is_lenient_get
    (fs : filesystem) (self : ConfigLoader.t) (t : string) :
  let patterns := [t +:+ "*"; t +:+ "*/**"; "**/" +:+ t +:+ "*"] in
  (get_essential_config t PyNone fs self).1.1
  = match (get patterns fs self).1.1 with
    | inl e => if is_missing e then inr ∅ else inl e
    | inr c => inr c
    end
  ∧ List.filter is_discover (get_essential_config t PyNone fs self).2
    = (get patterns fs self).2
  ∧ existsb is_warn (get patterns fs self).2 = false.
Proof.
  intros patterns. rewrite get_essential_config_unfold, get_unfold.
  cbn zeta. change (cached self patterns) with (@None config).
  change (essential_patterns t PyNone) with (PyStr <$> patterns).
  unfold common._get_config_from_patterns. rewrite as_strings_PyStr.
  destruct (common.discover_and_merge fs (conf_paths self) patterns) as [e|c];
    [|done].
  destruct (is_missing e) eqn:He; cbn; by rewrite He.
Qed.

(** *** Construction, section by section *)

(** [conf_paths] reads the four path attributes alone. *)
Lemma conf_paths_attributes (self self' : ConfigLoader.t) :
  base_env self = base_env self' →
  default_run_env self = default_run_env self' →
  env self = env self' →
  conf_source self = conf_source self' →
  conf_paths self = conf_paths self'.
Proof.
  intros Hb Hd He Hc.
  unfold conf_paths, _build_conf_paths, run_env. by rewrite Hb, Hd, He, Hc.
Qed.

(** The whole of a construction: the sections are requested in the order
    of [__init__], each against the same paths; the first fatal outcome
    ends the construction there. *)
Lemma new_outcome (fs : filesystem) (conf_source : string)
    (catalog parameters credentials logging : pyval)
    (env : option string) (runtime_params : pyval) :
  let self0 := mk "base" "local" env conf_source ∅ PyNone in
  let paths := conf_paths self0 in
  let found t provided :=
    common._get_config_from_patterns fs paths (essential_patterns t provided) in
  let events t provided :=
    section_events paths (essential_patterns t provided) (found t provided) in
  new fs conf_source catalog parameters credentials logging env runtime_params
  = match fatal (found "catalog" catalog) with
    | Some e => (inl e, self0, events "catalog" catalog)
    | None =>
    match fatal (found "parameters" parameters) with
    | Some e => (inl e, self0,
                 events "catalog" catalog ++ events "parameters" parameters)
    | None =>
    match fatal (found "credentials" credentials) with
    | Some e => (inl e, self0,
                 events "catalog" catalog ++ events "parameters" parameters
                 ++ events "credentials" credentials)
    | None =>
    match fatal (found "logging" logging) with
    | Some e => (inl e, self0,
                 events "catalog" catalog ++ events "parameters" parameters
                 ++ events "credentials" credentials
                 ++ events "logging" logging)
    | None =>
        (inr tt,
         mk "base" "local" env conf_source
           (<["catalog" := downgraded (found "catalog" catalog)]>
              (<["parameters" := downgraded (found "parameters" parameters)]>
                 (<["credentials" := downgraded (found "credentials" credentials)]>
                    (<["logging" := downgraded (found "logging" logging)]> ∅))))
           runtime_params,
         events "catalog" catalog ++ events "parameters" parameters
         ++ events "credentials" credentials ++ events "logging" logging)
    end end end end.
Proof.
  intros self0 paths found events. unfold new, __init__.
  unfold AbstractConfigLoader__init__, mbind, M_bind, modify. cbn.
  unfold set_conf_source, set_env, set_default_run_env, set_base_env. cbn.
  fold self0.
  rewrite get_essential_config_events. fold paths.
  fold (found "catalog" catalog). fold (events "catalog" catalog).
  destruct (fatal (found "catalog" catalog)) as [e1|]; [done|].
  rewrite get_essential_config_events. fold paths.
  fold (found "parameters" parameters). fold (events "parameters" parameters).
  destruct (fatal (found "parameters" parameters)) as [e2|]; [done|].
  rewrite get_essential_config_events. fold paths.
  fold (found "credentials" credentials).
  fold (events "credentials" credentials).
  destruct (fatal (found "credentials" credentials)) as [e3|].
  { unfold events, section_events. by rewrite <- ?app_assoc. }
  rewrite get_essential_config_events. fold paths.
  fold (found "logging" logging). fold (events "logging" logging).
  destruct (fatal (found "logging" logging)) as [e4|].
  - unfold events, section_events. by rewrite <- ?app_assoc.
  - cbn. unfold events, section_events.
    by rewrite ?app_nil_r, <- ?app_assoc.
Qed.

Lemma filter_discover_section_events paths pats r :
  List.filter is_discover (section_events paths pats r) = [Discover paths pats].
Proof.
  unfold section_events. destruct r as [e|c]; [|done].
  by destruct (is_missing e).
Qed.

(** Construction requests the sections in the order catalog, parameters,
    credentials, logging, and stops at the first whose helper call raises
    an error other than the missing-configuration one: it raises that
    error and calls the helper for no later section. It never raises the
    missing-configuration error. *)
Theorem init_stops_at_first_fatal
    (fs : filesystem) (conf_source : string)
    (catalog parameters credentials logging : pyval)
    (env : option string) (runtime_params : pyval) :
  let out := new fs conf_source catalog parameters credentials logging env
               runtime_params in
  let paths := conf_paths (mk "base" "local" env conf_source ∅ PyNone) in
  let request t provided := Discover paths (essential_patterns t provided) in
  let outcomes :=
    (fun '(t, provided) =>
       common._get_config_from_patterns fs paths (essential_patterns t provided))
    <$> [("catalog", catalog); ("parameters", parameters);
         ("credentials", credentials); ("logging", logging)] in
  out.1.1 = match first_fatal outcomes with
            | Some (_, e) => inl e
            | None => inr tt
            end
  ∧ List.filter is_discover out.2
    = take (match first_fatal outcomes with Some (i, _) => S i | None => 4 end)
        [request "catalog" catalog; request "parameters" parameters;
         request "credentials" credentials; request "logging" logging]
  ∧ match out.1.1 with inl e => is_missing e = false | inr _ => True end.
Proof.
  intros out paths request outcomes. subst out outcomes request.
  rewrite new_outcome. cbn zeta. fold paths. cbn [fmap list_fmap first_fatal].
  destruct (fatal (common._get_config_from_patterns fs paths
                     (essential_patterns "catalog" catalog))) as [e1|] eqn:H1.
  { cbn [fst snd]. rewrite filter_discover_section_events.
    by apply fatal_not_missing in H1. }
  destruct (fatal (common._get_config_from_patterns fs paths
                     (essential_patterns "parameters" parameters)))
    as [e2|] eqn:H2.
  { cbn [fst snd]. rewrite !List.filter_app, !filter_discover_section_events.
    by apply fatal_not_missing in H2. }
  destruct (fatal (common._get_config_from_patterns fs paths
                     (essential_patterns "credentials" credentials)))
    as [e3|] eqn:H3.
  { cbn [fst snd]. rewrite !List.filter_app, !filter_discover_section_events.
    by apply fatal_not_missing in H3. }
  destruct (fatal (common._get_config_from_patterns fs paths
                     (essential_patterns "logging" logging))) as [e4|] eqn:H4.
  { cbn [fst snd]. rewrite !List.filter_app, !filter_discover_section_events.
    by apply fatal_not_missing in H4. }
  cbn [fst snd]. by rewrite !List.filter_app, !filter_discover_section_events.
Qed.

Lemma essential_patterns_false t provided :
  truthy provided = false →
  essential_patterns t provided = essential_patterns t PyNone.
Proof. intros H. unfold essential_patterns, py_or. by rewrite H. Qed.

(** A section argument that is false for Python ([None], the empty
    string, an empty list or dict, zero) is ignored: construction runs as
    if nothing had been supplied. *)
Theorem init_ignores_false_arguments
    (fs : filesystem) (conf_source : string)
    (catalog parameters credentials logging : pyval)
    (env : option string) (runtime_params : pyval) :
  truthy catalog = false →
  truthy parameters = false →
  truthy credentials = false →
  truthy logging = false →
  new fs conf_source catalog parameters credentials logging env runtime_params
  = new fs conf_source PyNone PyNone PyNone PyNone env runtime_params.
Proof.
  intros Ha Hb Hc Hd. rewrite !new_outcome. cbn zeta.
  by rewrite (essential_patterns_false _ catalog),
    (essential_patterns_false _ parameters),
    (essential_patterns_false _ credentials),
    (essential_patterns_false _ logging).
Qed.

Lemma init_ignores_false_arguments_witness :
  new Examples.layered_fs "/proj/conf" (PyDict ∅) (PyStr "") (PyList [])
    (PyInt 0) (Some "local") PyNone
  = new Examples.layered_fs "/proj/conf" PyNone PyNone PyNone PyNone
      (Some "local") PyNone.
Proof.
  apply init_ignores_false_arguments; reflexivity.
Defined.

(** An empty [env] is no environment: construction with [env=""] searches
    the same directories, has the same outcome and stores the same
    sections as construction with [env=None], which is construction with
    the default run environment spelled out. *)
Theorem init_empty_env_is_default
    (fs : filesystem) (conf_source : string)
    (catalog parameters credentials logging : pyval) (runtime_params : pyval) :
  let build env := new fs conf_source catalog parameters credentials logging
                     env runtime_params in
  (build (Some "")).1.1 = (build None).1.1
  ∧ (build (Some "")).2 = (build None).2
  ∧ mapping (build (Some "")).1.2 = mapping (build None).1.2
  ∧ (build (Some "local")).1.1 = (build None).1.1
  ∧ (build (Some "local")).2 = (build None).2
  ∧ mapping (build (Some "local")).1.2 = mapping (build None).1.2.
Proof.
  intros build. subst build. cbn beta. rewrite !new_outcome. cbn zeta.
  change (conf_paths (mk "base" "local" (Some "") conf_source ∅ PyNone))
    with (conf_paths (mk "base" "local" None conf_source ∅ PyNone)).
  change (conf_paths (mk "base" "local" (Some "local") conf_source ∅ PyNone))
    with (conf_paths (mk "base" "local" None conf_source ∅ PyNone)).
  repeat (destruct (fatal _); [done|]). done.
Qed.

(** *** The mapping and the filesystem *)

Lemma fatal_None_downgraded (r : exn + config) (c : config) :
  fatal r = None → downgraded r = c → c ≠ ∅ → r = inr c.
Proof.
  destruct r as [e|c']; cbn; [|by intros _ ->].
  by intros _ <- Hne.
Qed.

(** After a construction with no section argument, a section whose stored
    config is not empty is answered by [get(t)] from the mapping with the
    very mapping that [get] on the three patterns [t*], [t*/**] and
    [**/t*] finds on the same filesystem. *)
Theorem cache_agrees_with_discovery
    (fs : filesystem) (conf_source : string) (env : option string)
    (runtime_params : pyval) (self : ConfigLoader.t) (tr : list event)
    (t : string) (c : config) :
  new fs conf_source PyNone PyNone PyNone PyNone env runtime_params
  = (inr tt, self, tr) →
  mapping self !! t = Some c →
  c ≠ ∅ →
  get [t] fs self = (inr c, self, [])
  ∧ (get [t +:+ "*"; t +:+ "*/**"; "**/" +:+ t +:+ "*"] fs self).1.1 = inr c.
Proof.
  rewrite new_outcome. cbn zeta.
  set (paths := conf_paths (mk "base" "local" env conf_source ∅ PyNone)).
  set (found := fun t => common._get_config_from_patterns fs paths
                           (essential_patterns t PyNone)).
  change (common._get_config_from_patterns fs paths
            (essential_patterns "catalog" PyNone)) with (found "catalog").
  change (common._get_config_from_patterns fs paths
            (essential_patterns "parameters" PyNone)) with (found "parameters").
  change (common._get_config_from_patterns fs paths
            (essential_patterns "credentials" PyNone)) with (found "credentials").
  change (common._get_config_from_patterns fs paths
            (essential_patterns "logging" PyNone)) with (found "logging").
  destruct (fatal (found "catalog")) eqn:F1; [done|].
  destruct (fatal (found "parameters")) eqn:F2; [done|].
  destruct (fatal (found "credentials")) eqn:F3; [done|].
  destruct (fatal (found "logging")) eqn:F4; [done|].
  intros [= <- _] Ht Hne.
  assert (Hpaths : conf_paths
                     (mk "base" "local" env conf_source
                        (<["catalog" := downgraded (found "catalog")]>
                           (<["parameters" := downgraded (found "parameters")]>
                              (<["credentials" := downgraded (found "credentials")]>
                                 (<["logging" := downgraded (found "logging")]> ∅))))
                        runtime_params) = paths)
    by (by apply conf_paths_attributes).
  assert (Hfound : found t = inr c).
  { cbn [mapping] in Ht.
    repeat (apply lookup_insert_Some in Ht as [[<- Ht]|[_ Ht]];
            [by eapply fatal_None_downgraded|]).
    by rewrite lookup_empty in Ht. }
  split.
  - rewrite get_unfold. unfold cached, truthy_config.
    rewrite Ht. by rewrite bool_decide_eq_true_2.
  - rewrite get_unfold.
    change (cached _ [_; _; _]) with (@None config). rewrite Hpaths.
    unfold found, common._get_config_from_patterns in Hfound.
    change (essential_patterns t PyNone)
      with (PyStr <$> [t +:+ "*"; t +:+ "*/**"; "**/" +:+ t +:+ "*"]) in Hfound.
    by rewrite as_strings_PyStr in Hfound.
Qed.

Lemma cache_agrees_with_discovery_witness :
  get ["catalog"] Examples.layered_fs Examples.layered
  = (inr (Examples.ints [("a", 1%Z); ("b", 3%Z); ("c", 4%Z)]),
     Examples.layered, [])
  ∧ (get ["catalog*"; "catalog*/**"; "**/catalog*"]
       Examples.layered_fs Examples.layered).1.1
    = inr (Examples.ints [("a", 1%Z); ("b", 3%Z); ("c", 4%Z)]).
Proof.
  apply (cache_agrees_with_discovery Examples.layered_fs "/proj/conf"
           (Some "local") PyNone Examples.layered
           (new Examples.layered_fs "/proj/conf" PyNone PyNone PyNone PyNone
              (Some "local") PyNone).2
           "catalog").
  - reflexivity.
  - reflexivity.
  - intros H. apply (f_equal (fun m : config => m !! "a")) in H.
    vm_compute in H. discriminate H.
Defined.

(** The mapping plays a part in [get] for exactly one pattern only: with
    no pattern, or with two or more, [get] calls the helper whatever the
    mapping holds. *)
Theorem get_bypasses_mapping
    (fs : filesystem) (self : ConfigLoader.t) (m : gmap string config)
    (patterns : list string) :
  List.length patterns ≠ 1 →
  (get patterns fs (set_mapping m self)).1.1
  = common.discover_and_merge fs (conf_paths self) patterns
  ∧ (get patterns fs (set_mapping m self)).2
    = [Discover (conf_paths self) (PyStr <$> patterns)].
Proof.
  intros Hlen. rewrite get_unfold.
  assert (Hcached : cached (set_mapping m self) patterns = None).
  { destruct patterns as [|p [|q patterns]]; [done| |done]. by cbn in Hlen. }
  rewrite Hcached.
  by rewrite (conf_paths_attributes (set_mapping m self) self).
Qed.

(** Asking for [catalog] together with a second pattern goes to the
    filesystem although the catalog is in the mapping. *)
Lemma get_bypasses_mapping_witness :
  (get ["catalog"; "catalog*"] Examples.layered_fs
     (set_mapping (mapping Examples.layered) Examples.layered)).2
  = [Discover (conf_paths Examples.layered)
       (PyStr <$> ["catalog"; "catalog*"])].
Proof.
  apply (proj2 (get_bypasses_mapping Examples.layered_fs Examples.layered
                  (mapping Examples.layered) ["catalog"; "catalog*"]
                  ltac:(discriminate))).
Defined.

(** *** Paths *)

Lemma lstrip_slash_cons (c : ascii) (s : string) :
  PurePath.lstrip_slash (String c s)
  = if Ascii.eqb c "/"
    then (S (PurePath.lstrip_slash s).1, (PurePath.lstrip_slash s).2)
    else (0, String c s).
Proof.
  destruct (Ascii.eqb_spec c "/") as [->|Hne].
  - cbn. by destruct (PurePath.lstrip_slash s).
  - destruct c as [[] [] [] [] [] [] [] []]; try reflexivity. by destruct Hne.
Qed.

Lemma parse_absolute (s : string) :
  PurePath.root (PurePath.parse (String "/" s)) ≠ "".
Proof.
  unfold PurePath.parse, PurePath.splitroot.
  rewrite lstrip_slash_cons. cbn.
  destruct (PurePath.lstrip_slash s) as [n r]. cbn.
  by destruct n as [|[|n]].
Qed.

Lemma truediv_absolute (p : PurePath.t) (s : string) :
  PurePath.truediv p (String "/" s) = PurePath.parse (String "/" s).
Proof.
  unfold PurePath.truediv.
  destruct (String.eqb_spec (PurePath.root (PurePath.parse (String "/" s))) "")
    as [Heq|_]; [|done].
  by destruct (parse_absolute s).
Qed.

(** An environment name that is an absolute path is used as it is: the
    configuration path of an absolute [base_env], and of an absolute run
    environment, is that path itself, whatever [conf_source] is. *)
Theorem absolute_environment_replaces_conf_source
    (self : ConfigLoader.t) (s : string) :
  (base_env self = String "/" s →
   ∀ source, _build_conf_paths (set_conf_source source self) !! 0
             = Some (PurePath.str (PurePath.parse (String "/" s))))
  ∧ (run_env self = String "/" s →
     ∀ source, _build_conf_paths (set_conf_source source self) !! 1
               = Some (PurePath.str (PurePath.parse (String "/" s)))).
Proof.
  split; intros Henv source; unfold _build_conf_paths; cbn [lookup list_lookup].
  - change (base_env (set_conf_source source self)) with (base_env self).
    by rewrite Henv, truediv_absolute.
  - change (run_env (set_conf_source source self)) with (run_env self).
    by rewrite Henv, truediv_absolute.
Qed.

Lemma absolute_environment_replaces_conf_source_witness :
  _build_conf_paths
    (set_conf_source "/elsewhere"
       (mk "base" "local" (Some "/etc/kedro") "/proj/conf" ∅ PyNone)) !! 1
  = Some "/etc/kedro".
Proof.
  exact (proj2 (absolute_environment_replaces_conf_source
                  (mk "base" "local" (Some "/etc/kedro") "/proj/conf" ∅ PyNone)
                  "etc/kedro") eq_refl "/elsewhere").
Defined.

Lemma split_on_nonempty (sep : ascii) (s : string) :
  PurePath.split_on sep s ≠ [].
Proof.
  destruct s as [|c s]; [done|]. cbn -[Ascii.eqb].
  destruct (Ascii.eqb c sep); [done|].
  by destruct (PurePath.split_on sep s).
Qed.

Lemma split_on_trailing (sep : ascii) (s : string) :
  PurePath.split_on sep (s +:+ String sep "")
  = PurePath.split_on sep s ++ [""].
Proof.
  induction s as [|c s IH].
  - change ("" +:+ String sep "") with (String sep "").
    cbn -[Ascii.eqb]. by rewrite Ascii.eqb_refl.
  - change (String c s +:+ String sep "") with (String c (s +:+ String sep "")).
    cbn -[Ascii.eqb]. rewrite IH. destruct (Ascii.eqb c sep); [done|].
    pose proof (split_on_nonempty sep s) as Hne.
    by destruct (PurePath.split_on sep s).
Qed.

Lemma lstrip_slash_trailing (s : string) :
  (PurePath.lstrip_slash s).2 ≠ "" →
  PurePath.lstrip_slash (s +:+ "/")
  = ((PurePath.lstrip_slash s).1, (PurePath.lstrip_slash s).2 +:+ "/").
Proof.
  induction s as [|c s IH]; [done|].
  change (String c s +:+ "/") with (String c (s +:+ "/")).
  rewrite !lstrip_slash_cons.
  destruct (Ascii.eqb c "/"); [|done].
  cbn. intros Hne. by rewrite (IH Hne).
Qed.

Lemma lstrip_slash_none (s : string) :
  (PurePath.lstrip_slash s).1 = 0 → (PurePath.lstrip_slash s).2 = s.
Proof.
  destruct s as [|c s]; [done|]. rewrite lstrip_slash_cons.
  by destruct (Ascii.eqb c "/").
Qed.

(** [Path(s + "/")] is [Path(s)] when [s] has a component. *)
Lemma parse_trailing_slash (s : string) :
  PurePath.parts (PurePath.parse s) ≠ [] →
  PurePath.parse (s +:+ "/") = PurePath.parse s.
Proof.
  intros Hparts.
  assert (Hrest : (PurePath.lstrip_slash s).2 ≠ "").
  { intros Hrest. apply Hparts. unfold PurePath.parse, PurePath.splitroot.
    destruct (PurePath.lstrip_slash s) as [n r] eqn:Hs. cbn in Hrest. subst r.
    destruct n as [|[|[|n]]]; [|done..].
    pose proof (lstrip_slash_none s) as Hnone. rewrite Hs in Hnone.
    by rewrite <- (Hnone eq_refl). }
  unfold PurePath.parse, PurePath.splitroot.
  rewrite (lstrip_slash_trailing s Hrest).
  pose proof (lstrip_slash_none s) as Hnone.
  destruct (PurePath.lstrip_slash s) as [n r]. cbn [fst snd] in *.
  assert (Hfilter : ∀ x, List.filter PurePath.keep_component
                           (PurePath.split_on "/" (x +:+ "/"))
                         = List.filter PurePath.keep_component
                             (PurePath.split_on "/" x)).
  { intros x. rewrite (split_on_trailing "/" x), List.filter_app. cbn.
    by rewrite app_nil_r. }
  destruct n as [|[|[|n]]]; by rewrite Hfilter.
Qed.

(** [conf_source] is read as a path: a trailing slash changes no
    configuration path, and with an empty [conf_source] the paths are the
    environment names themselves, as paths. *)
Theorem conf_source_is_normalised (self : ConfigLoader.t) :
  (PurePath.parts (PurePath.parse (conf_source self)) ≠ [] →
   conf_paths (set_conf_source (conf_source self +:+ "/") self)
   = conf_paths self)
  ∧ (conf_source self = "" →
     _build_conf_paths self
     = [PurePath.str (PurePath.parse (base_env self));
        PurePath.str (PurePath.parse (run_env self))]).
Proof.
  split.
  - intros Hparts. unfold conf_paths, _build_conf_paths.
    change (base_env (set_conf_source _ self)) with (base_env self).
    change (run_env (set_conf_source _ self)) with (run_env self).
    change (conf_source (set_conf_source (conf_source self +:+ "/") self))
      with (conf_source self +:+ "/").
    by rewrite parse_trailing_slash.
  - intros Hsource. unfold _build_conf_paths. rewrite Hsource.
    assert (Hdiv : ∀ e, PurePath.truediv (PurePath.parse "") e = PurePath.parse e).
    { intros e. unfold PurePath.truediv.
      destruct (String.eqb_spec (PurePath.root (PurePath.parse e)) "")
        as [Hroot|_]; [|done].
      cbn. destruct (PurePath.parse e) as [r ps]. cbn in Hroot. by subst r. }
    by rewrite !Hdiv.
Qed.

Lemma conf_source_is_normalised_witness :
  conf_paths (set_conf_source "/proj/conf/" Examples.layered)
  = conf_paths Examples.layered.
Proof.
  apply (proj1 (conf_source_is_normalised Examples.layered)).
  vm_compute. discriminate.
Defined.

(** *** Construction and the values supplied for the sections *)




